(** * Verification of comm-common: session store (src/session.rs) and
      configuration resolution (src/config.rs).

    The Postgres table [session] is modelled as a list of rows in insertion
    order; every public operation of [Session] is exactly one SQL statement,
    modelled as one atomic function on the table.  The clock [now()] of the
    database is passed as an explicit timestamp (seconds), and a failure of
    the backing store that is not caused by the table contents (lost
    connection, ...) is an explicit [fault] argument: when present, the
    statement is not applied and its error is returned. *)

From Stdlib Require Import List Permutation String ZArith Bool Lia.
Import ListNotations.
Open Scope string_scope.
Open Scope list_scope.

(** ** Rust's [Result] *)

Inductive Result (T E : Type) : Type :=
| Ok (v : T)
| Err (e : E).
Arguments Ok {T E} v.
Arguments Err {T E} e.

Definition map_err {T E F : Type} (f : E -> F) (r : Result T E) : Result T F :=
  match r with
  | Ok v => Ok v
  | Err e => Err (f e)
  end.

(** ** The backing store's errors ([postgres::Error]) *)

Inductive SqlState : Type :=
| UNIQUE_VIOLATION
| OTHER_SQLSTATE (code : string).

Record DbError : Type := mkDbError { code : option SqlState }.

Definition is_unique_violation (e : DbError) : bool :=
  match code e with
  | Some UNIQUE_VIOLATION => true
  | _ => false
  end.

(** Error of key material resolution ([id_contact_jwt] / [josekit]). *)
Record JwtError : Type := mkJwtError { jwt_msg : string }.

(** Modelled from the spec: [crate::error::Error] (src/error.rs is not in
    the sources).  [NotFound] and [BadRequest] are the variants the code
    constructs; [BadRequest "A session with that ID already exists"] is the
    spec's [Conflict].  [StorageError] is [Error::from(postgres::Error)] (the
    spec's [StorageError]), [InvalidKeyMaterial] is the conversion of a key
    resolution error (the spec's [InvalidKeyMaterial]) and [InvalidToken] is
    the validation error of [SessionDomain::from_str] (the spec: an
    unrecognized domain value is [InvalidToken]). *)
Inductive Error : Type :=
| NotFound
| BadRequest (msg : string)
| StorageError (e : DbError)
| InvalidKeyMaterial (e : JwtError)
| InvalidToken.

Definition Conflict : Error := BadRequest "A session with that ID already exists".

(** ** Types of [crate::types] *)

(** Modelled from the spec: [SessionDomain] (src/types.rs is not in the
    sources), a closed enumeration written to the table by [to_string] and
    parsed back by [from_str], which fails with a validation error on any
    unrecognized value. *)
Inductive SessionDomain : Type :=
| User
| Guest.

Definition SessionDomain_to_string (d : SessionDomain) : string :=
  match d with
  | User => "user"
  | Guest => "guest"
  end.

(** Modelled from the spec: [SessionDomain::from_str]. *)
Definition SessionDomain_from_str (s : string) : Result SessionDomain Error :=
  if String.eqb s "user" then Ok User
  else if String.eqb s "guest" then Ok Guest
  else Err InvalidToken.

Record GuestToken : Type := mkGuestToken {
  id : string;
  room_id : string;
  domain : SessionDomain;
  redirect_url : string;
  name : string;
  instance : string
}.

(** ** [Session] (src/session.rs) *)

Record Session : Type := mkSession {
  guest_token : GuestToken;
  auth_result : option string;
  attr_id : string;
  purpose : string
}.

Definition Session_new (gt : GuestToken) (attr : string) (purp : string) : Session :=
  {| attr_id := attr; purpose := purp; guest_token := gt; auth_result := None |}.

(** A row of table [session]; column names as in the SQL of session.rs. *)
Record Row : Type := mkRow {
  col_session_id : string;
  col_room_id : string;
  col_domain : string;
  col_redirect_url : string;
  col_purpose : string;
  col_name : string;
  col_instance : string;
  col_attr_id : string;
  col_auth_result : option string;
  col_last_activity : Z
}.

Definition Table := list Row.

(** [db.run(...)]: a statement either hits an external fault, and is not
    applied, or runs atomically on the table. The fault models a failure
    before the statement applies (connection, pool, serialization); a
    statement that commits while its reply to the caller is lost is not
    modelled, so a property below that says the table is unchanged after an
    [Err] holds of this model only. *)
Definition run {A : Type} (fault : option DbError)
    (stmt : Table -> Result (A * Table) DbError) (t : Table)
    : Result A DbError * Table :=
  match fault with
  | Some e => (Err e, t)
  | None =>
      match stmt t with
      | Ok (a, t') => (Ok a, t')
      | Err e => (Err e, t)
      end
  end.

(** The row [Session::persist] inserts: the values $1..$9 and [now()]. *)
Definition row_of_session (s : Session) (now : Z) : Row :=
  {| col_session_id := id (guest_token s);
     col_room_id := room_id (guest_token s);
     col_domain := SessionDomain_to_string (domain (guest_token s));
     col_redirect_url := redirect_url (guest_token s);
     col_purpose := purpose s;
     col_name := name (guest_token s);
     col_instance := instance (guest_token s);
     col_attr_id := attr_id s;
     col_auth_result := auth_result s;
     col_last_activity := now |}.

Definition set_auth_result (res : option string) (now : Z) (r : Row) : Row :=
  {| col_session_id := col_session_id r; col_room_id := col_room_id r;
     col_domain := col_domain r; col_redirect_url := col_redirect_url r;
     col_purpose := col_purpose r; col_name := col_name r;
     col_instance := col_instance r; col_attr_id := col_attr_id r;
     col_auth_result := res; col_last_activity := now |}.

Definition touch (now : Z) (r : Row) : Row :=
  set_auth_result (col_auth_result r) now r.

(** *** The SQL statements *)

(** [INSERT INTO session (...) VALUES (...)], with [session_id] the primary
    key of the table. *)
Definition sql_insert (new : Row) (t : Table) : Result (nat * Table) DbError :=
  if existsb (fun r => String.eqb (col_session_id r) (col_session_id new)) t
  then Err {| code := Some UNIQUE_VIOLATION |}
  else Ok (1, t ++ [new]).

(** [WHERE auth_result IS NULL AND attr_id = $2] *)
Definition pending_with (attr : string) (r : Row) : bool :=
  match col_auth_result r with
  | None => String.eqb (col_attr_id r) attr
  | Some _ => false
  end.

(** [UPDATE session SET (auth_result, last_activity) = ($1, now())
     WHERE auth_result IS NULL AND attr_id = $2]; returns the number of
    affected rows. *)
Definition sql_register (res attr : string) (now : Z) (t : Table)
    : Result (nat * Table) DbError :=
  Ok (List.length (filter (pending_with attr) t),
      map (fun r => if pending_with attr r then set_auth_result (Some res) now r else r) t).

Definition in_room (room : string) (r : Row) : bool := String.eqb (col_room_id r) room.

(** [UPDATE session SET last_activity = now() WHERE room_id = $1
     RETURNING ...]; returns the updated rows. PostgreSQL leaves the order
    of the [RETURNING] rows unspecified; the model returns them in table
    order, which is one admissible choice, so the properties below state
    the returned sessions up to permutation or by membership. *)
Definition sql_touch_room (room : string) (now : Z) (t : Table)
    : Result (list Row * Table) DbError :=
  Ok (map (touch now) (filter (in_room room) t),
      map (fun r => if in_room room r then touch now r else r) t).

(** [last_activity < now() - INTERVAL '1 hour'] *)
Definition idle (now : Z) (r : Row) : bool := (col_last_activity r <? now - 3600)%Z.

(** [DELETE FROM session WHERE last_activity < now() - INTERVAL '1 hour'] *)
Definition sql_delete_idle (now : Z) (t : Table) : Result (nat * Table) DbError :=
  Ok (List.length (filter (idle now) t), filter (fun r => negb (idle now r)) t).

(** *** The operations *)

Definition persist (fault : option DbError) (now : Z) (s : Session) (t : Table)
    : Result unit Error * Table :=
  let '(res, t') := run fault (sql_insert (row_of_session s now)) t in
  (match res with
   | Ok _ => Ok tt
   | Err e => Err (if is_unique_violation e then Conflict else StorageError e)
   end, t').

Definition register_auth_result (fault : option DbError) (now : Z)
    (attr res : string) (t : Table) : Result unit Error * Table :=
  let '(n, t') := run fault (sql_register res attr now) t in
  (match n with
   | Err e => Err (StorageError e)
   | Ok 1 => Ok tt
   | Ok _ => Err NotFound
   end, t').

(** [Iterator::collect] into a [Result]: the first [Err] is returned. *)
Fixpoint collect {A E : Type} (l : list (Result A E)) : Result (list A) E :=
  match l with
  | [] => Ok []
  | Ok a :: l' =>
      match collect l' with
      | Ok xs => Ok (a :: xs)
      | Err e => Err e
      end
  | Err e :: _ => Err e
  end.

(** The closure mapping a returned row to a [Session]. *)
Definition decode_row (r : Row) : Result Session Error :=
  match SessionDomain_from_str (col_domain r) with
  | Err e => Err e
  | Ok d =>
      let gt := {| id := col_session_id r; room_id := col_room_id r; domain := d;
                   redirect_url := col_redirect_url r; name := col_name r;
                   instance := col_instance r |} in
      Ok {| purpose := col_purpose r; guest_token := gt; attr_id := col_attr_id r;
            auth_result := col_auth_result r |}
  end.

Definition find_by_room_id (fault : option DbError) (now : Z) (room : string) (t : Table)
    : Result (list Session) Error * Table :=
  let '(rows, t') := run fault (sql_touch_room room now) t in
  (match rows with
   | Err e => Err (StorageError e)
   | Ok [] => Err NotFound
   | Ok rs => collect (map decode_row rs)
   end, t').

Definition clean_db (fault : option DbError) (now : Z) (t : Table)
    : Result unit Error * Table :=
  let '(n, t') := run fault (sql_delete_idle now) t in
  (match n with
   | Err e => Err (StorageError e)
   | Ok _ => Ok tt
   end, t').

(** ** Configuration (src/config.rs) *)

(** Outcome of Rust code that may panic ([Result::unwrap] on an [Err]). *)
Inductive Exec (A : Type) : Type :=
| Returned (a : A)
| Panicked.
Arguments Returned {A} a.
Arguments Panicked {A}.

Definition unwrap {T E : Type} (r : Result T E) : Exec T :=
  match r with
  | Ok v => Returned v
  | Err _ => Panicked
  end.

(** The capability objects and the key declarations come from the crates
    [josekit] and [id_contact_jwt]: they are parameters of the records. *)
Set Implicit Arguments.

Record RawAuthDuringCommConfig (SignKeyConfig : Type) : Type := mkRawAuthDuringCommConfig {
  raw_core_url : string;
  raw_widget_url : string;
  raw_display_name : string;
  raw_widget_signing_privkey : SignKeyConfig;
  raw_start_auth_signing_privkey : SignKeyConfig;
  raw_start_auth_key_id : string;
  raw_guest_signature_secret : string;
  raw_host_signature_secret : string
}.

Record AuthDuringCommConfig (JwsVerifier JwsSigner : Type) : Type := mkAuthDuringCommConfig {
  core_url : string;
  widget_url : string;
  display_name : string;
  widget_signer : JwsSigner;
  start_auth_signer : JwsSigner;
  start_auth_key_id : string;
  guest_validator : JwsVerifier;
  host_validator : JwsVerifier
}.

(** The [cfg(feature = "auth_during_comm")] fields are an [option]: [None]
    when the feature is compiled out. *)
Record RawConfig (EncryptionKeyConfig SignKeyConfig : Type) : Type := mkRawConfig {
  raw_internal_url : string;
  raw_external_url : option string;
  raw_decryption_privkey : EncryptionKeyConfig;
  raw_signature_pubkey : SignKeyConfig;
  raw_auth_during_comm_config : option (RawAuthDuringCommConfig SignKeyConfig)
}.

Record Config (JweDecrypter JwsVerifier JwsSigner : Type) : Type := mkConfig {
  internal_url : string;
  external_url : option string;
  decrypter : JweDecrypter;
  validator : JwsVerifier;
  auth_during_comm_config : option (AuthDuringCommConfig JwsVerifier JwsSigner)
}.

Unset Implicit Arguments.

Section Config.

(** The capability objects and the key declarations come from the crates
    [josekit] and [id_contact_jwt]; their resolution functions are
    parameters of the development. *)
Variables (JweDecrypter JwsVerifier JwsSigner : Type).
Variables (EncryptionKeyConfig SignKeyConfig : Type).
(** [Box::<dyn JweDecrypter>::try_from(EncryptionKeyConfig)] *)
Variable decrypter_try_from : EncryptionKeyConfig -> Result JweDecrypter JwtError.
(** [Box::<dyn JwsVerifier>::try_from(SignKeyConfig)] *)
Variable verifier_try_from : SignKeyConfig -> Result JwsVerifier JwtError.
(** [Box::<dyn JwsSigner>::try_from(SignKeyConfig)] *)
Variable signer_try_from : SignKeyConfig -> Result JwsSigner JwtError.
(** [HmacJwsAlgorithm::Hs256.verifier_from_bytes] *)
Variable hs256_verifier_from_bytes : string -> Result JwsVerifier JwtError.

(** [TryFrom<RawAuthDuringCommConfig> for AuthDuringCommConfig]: the two
    HMAC verifiers are built with [.unwrap()], the two signers with [?]. *)
Definition AuthDuringCommConfig_try_from (raw : RawAuthDuringCommConfig SignKeyConfig)
    : Exec (Result (AuthDuringCommConfig JwsVerifier JwsSigner) Error) :=
  match unwrap (hs256_verifier_from_bytes (raw_guest_signature_secret raw)) with
  | Panicked => Panicked
  | Returned gv =>
  match unwrap (hs256_verifier_from_bytes (raw_host_signature_secret raw)) with
  | Panicked => Panicked
  | Returned hv =>
  Returned
    (match signer_try_from (raw_widget_signing_privkey raw) with
     | Err e => Err (InvalidKeyMaterial e)
     | Ok ws =>
     match signer_try_from (raw_start_auth_signing_privkey raw) with
     | Err e => Err (InvalidKeyMaterial e)
     | Ok ss =>
       Ok {| core_url := raw_core_url raw; widget_url := raw_widget_url raw;
             display_name := raw_display_name raw; widget_signer := ws;
             start_auth_signer := ss; start_auth_key_id := raw_start_auth_key_id raw;
             guest_validator := gv; host_validator := hv |}
     end
     end)
  end
  end.

(** The fields [decrypter] and [validator] of the struct literal, in order. *)
Definition resolve_base (raw : RawConfig EncryptionKeyConfig SignKeyConfig)
    (adc : option (AuthDuringCommConfig JwsVerifier JwsSigner))
    : Result (Config JweDecrypter JwsVerifier JwsSigner) Error :=
  match decrypter_try_from (raw_decryption_privkey raw) with
  | Err e => Err (InvalidKeyMaterial e)
  | Ok d =>
  match verifier_try_from (raw_signature_pubkey raw) with
  | Err e => Err (InvalidKeyMaterial e)
  | Ok v =>
    Ok {| auth_during_comm_config := adc; internal_url := raw_internal_url raw;
          external_url := raw_external_url raw; decrypter := d; validator := v |}
  end
  end.

(** [TryFrom<RawConfig> for Config]: the extension is resolved first. *)
Definition Config_try_from (raw : RawConfig EncryptionKeyConfig SignKeyConfig)
    : Exec (Result (Config JweDecrypter JwsVerifier JwsSigner) Error) :=
  match raw_auth_during_comm_config raw with
  | None => Returned (resolve_base raw None)
  | Some radc =>
      match AuthDuringCommConfig_try_from radc with
      | Panicked => Panicked
      | Returned (Err e) => Returned (Err e)
      | Returned (Ok adc) => Returned (resolve_base raw (Some adc))
      end
  end.

Definition Config_internal_url (c : Config JweDecrypter JwsVerifier JwsSigner) : string := internal_url c.

Definition Config_external_url (c : Config JweDecrypter JwsVerifier JwsSigner) : string :=
  match external_url c with
  | Some u => u
  | None => internal_url c
  end.

End Config.


Arguments AuthDuringCommConfig_try_from {JwsVerifier JwsSigner SignKeyConfig}
  signer_try_from hs256_verifier_from_bytes raw.
Arguments resolve_base {JweDecrypter JwsVerifier JwsSigner EncryptionKeyConfig SignKeyConfig}
  decrypter_try_from verifier_try_from raw adc.
Arguments Config_try_from {JweDecrypter JwsVerifier JwsSigner EncryptionKeyConfig SignKeyConfig}
  decrypter_try_from verifier_try_from signer_try_from hs256_verifier_from_bytes raw.
Arguments Config_internal_url {JweDecrypter JwsVerifier JwsSigner} c.
Arguments Config_external_url {JweDecrypter JwsVerifier JwsSigner} c.

(** ** Concrete inputs *)

Definition sample_token (sid room : string) : GuestToken :=
  {| id := sid; room_id := room; domain := Guest; redirect_url := "https://example.com/done";
     name := "Alice"; instance := "comm-1" |}.

Definition sample_session (sid room attr : string) : Session :=
  Session_new (sample_token sid room) attr "report_move".

(** One pending session with [attr_id] "a". *)
Definition sample_table1 : Table := [row_of_session (sample_session "s1" "r1" "a") 0].

(** A pending session with [attr_id] "b" and a resolved one with "a". *)
Definition sample_table_mixed : Table :=
  [row_of_session (sample_session "s1" "r1" "b") 0;
   set_auth_result (Some "done") 0 (row_of_session (sample_session "s2" "r1" "a") 0)].

(** Two pending sessions sharing [attr_id] "a". *)
Definition sample_table2 : Table :=
  [row_of_session (sample_session "s1" "r1" "a") 0;
   row_of_session (sample_session "s2" "r1" "a") 0].

(** An instance of the key resolvers in which every key declaration
    resolves, and the HS256 verifier rejects secrets shorter than the
    32-byte HS256 signature, as [josekit] does. *)
Definition ok_resolver {K : Type} (_ : K) : Result unit JwtError := Ok tt.

Definition hs256_min_len (secret : string) : Result unit JwtError :=
  if Nat.ltb (String.length secret) 32
  then Err {| jwt_msg := "Secret key size must be larger than or equal to 32" |}
  else Ok tt.

Definition sample_raw_adc (guest_secret : string) : RawAuthDuringCommConfig unit :=
  {| raw_core_url := "https://core.example.com";
     raw_widget_url := "https://widget.example.com";
     raw_display_name := "Example Comm";
     raw_widget_signing_privkey := tt; raw_start_auth_signing_privkey := tt;
     raw_start_auth_key_id := "key-1";
     raw_guest_signature_secret := guest_secret;
     raw_host_signature_secret := "flapflapflapflapflapflapflapflapflapflap" |}.

Definition sample_raw_config (ext : option string) (adc : option (RawAuthDuringCommConfig unit))
    : RawConfig unit unit :=
  {| raw_internal_url := "https://internal.example.com"; raw_external_url := ext;
     raw_decryption_privkey := tt; raw_signature_pubkey := tt;
     raw_auth_during_comm_config := adc |}.

(** The [Config] resolved from [sample_raw_config None None]. *)
Definition sample_config : Config unit unit unit :=
  {| internal_url := "https://internal.example.com"; external_url := None;
     decrypter := tt; validator := tt; auth_during_comm_config := None |}.

(** [Session::register_auth_result]'s table update. *)
Definition register_update (attr res : string) (now : Z) (t : Table) : Table :=
  map (fun r => if pending_with attr r then set_auth_result (Some res) now r else r) t.

(** [find_by_room_id]'s table update. *)
Definition room_update (room : string) (now : Z) (t : Table) : Table :=
  map (fun r => if in_room room r then touch now r else r) t.

(** A table holding persisted sessions, each inserted by [persist] at its
    own time. *)
Definition persisted_table (entries : list (Session * Z)) : Table :=
  map (fun '(s, a) => row_of_session s a) entries.

(** A table whose only row has the domain "admin", not a [SessionDomain]. *)
Definition sample_corrupt_table : Table :=
  [{| col_session_id := "s9"; col_room_id := "r1"; col_domain := "admin";
      col_redirect_url := "https://example.com/done"; col_purpose := "report_move";
      col_name := "Mallory"; col_instance := "comm-1"; col_attr_id := "z";
      col_auth_result := None; col_last_activity := 0 |}].

(** The operations on the table, as a step function. *)
Inductive Op : Type :=
| OpPersist (fault : option DbError) (now : Z) (s : Session)
| OpRegister (fault : option DbError) (now : Z) (attr res : string)
| OpFind (fault : option DbError) (now : Z) (room : string)
| OpClean (fault : option DbError) (now : Z).

Definition apply_op (o : Op) (t : Table) : Table :=
  match o with
  | OpPersist fault now s => snd (persist fault now s t)
  | OpRegister fault now attr res => snd (register_auth_result fault now attr res t)
  | OpFind fault now room => snd (find_by_room_id fault now room t)
  | OpClean fault now => snd (clean_db fault now t)
  end.

(** A row that holds an [auth_result] keeps it: every row of [t'] with the
    same [session_id] holds the same result. *)
Definition results_kept (t t' : Table) : Prop :=
  forall r r' v, In r t -> col_auth_result r = Some v -> In r' t' ->
    col_session_id r' = col_session_id r -> col_auth_result r' = Some v.

(** [pending_with] read on a [Session] instead of its row. *)
Definition session_pending (attr : string) (s : Session) : bool :=
  match auth_result s with
  | None => String.eqb (attr_id s) attr
  | Some _ => false
  end.

(** The session as [register_auth_result] leaves it when it was pending. *)
Definition session_with_result (res : string) (s : Session) : Session :=
  {| guest_token := guest_token s; auth_result := Some res; attr_id := attr_id s;
     purpose := purpose s |}.

(** * Properties *)

Lemma register_auth_result_eq (fault : option DbError) (now : Z) (attr res : string) (t : Table) :
  register_auth_result fault now attr res t =
  match fault with
  | Some e => (Err (StorageError e), t)
  | None =>
      (if Nat.eqb (List.length (filter (pending_with attr) t)) 1 then Ok tt else Err NotFound,
       register_update attr res now t)
  end.
Proof.
  destruct fault as [e|]; [reflexivity|].
  unfold register_auth_result, run, sql_register, register_update.
  destruct (List.length (filter (pending_with attr) t)) as [|[|n]]; reflexivity.
Qed.

Lemma register_update_no_pending (attr res : string) (now : Z) (t : Table) :
  (forall r, In r t -> pending_with attr r = false) ->
  register_update attr res now t = t.
Proof.
  induction t as [|r t IH]; intros H; [reflexivity|].
  simpl. rewrite (H r (or_introl eq_refl)).
  f_equal. apply IH. intros r' Hr'. apply H. now right.
Qed.

Lemma no_pending_filter (attr : string) (t : Table) :
  (forall r, In r t -> pending_with attr r = false) -> filter (pending_with attr) t = [].
Proof.
  intros Hno. destruct (filter (pending_with attr) t) as [|x l] eqn:E; [reflexivity|].
  exfalso. assert (Hx : In x (filter (pending_with attr) t)) by (rewrite E; left; reflexivity).
  apply filter_In in Hx as [Hin Hp]. rewrite (Hno x Hin) in Hp. discriminate.
Qed.

(** ** C2 *)

(** C2: [register_auth_result] is one conditional update of the rows with
    the given [attr_id] and no [auth_result]; it succeeds exactly when one
    row is affected and otherwise fails with [NotFound] (a failure of the
    statement itself is a storage error).  When no row is eligible, be it
    because no row has that [attr_id] or because every such row is already
    resolved, the outcome is the same [NotFound] and the table is left
    unchanged, so the caller cannot tell the two cases apart. *)
Theorem register_auth_result_conditional_update
    (fault : option DbError) (now : Z) (attr res : string) (t : Table) :
  register_auth_result fault now attr res t =
  match fault with
  | Some e => (Err (StorageError e), t)
  | None =>
      (if Nat.eqb (List.length (filter (pending_with attr) t)) 1 then Ok tt else Err NotFound,
       map (fun r => if pending_with attr r then set_auth_result (Some res) now r else r) t)
  end
  /\ (forall t0 : Table,
        (forall r, In r t0 -> String.eqb (col_attr_id r) attr = true ->
                   col_auth_result r <> None) ->
        register_auth_result None now attr res t0 = (Err NotFound, t0)).
Proof.
  split; [apply register_auth_result_eq|].
  intros t0 H. rewrite register_auth_result_eq.
  assert (Hnp : forall r, In r t0 -> pending_with attr r = false).
  { intros r Hr. unfold pending_with.
    destruct (col_auth_result r) eqn:E; [reflexivity|].
    destruct (String.eqb (col_attr_id r) attr) eqn:E2; [|reflexivity].
    exfalso. exact (H r Hr E2 E). }
  rewrite (no_pending_filter _ _ Hnp), register_update_no_pending by exact Hnp.
  reflexivity.
Qed.

(** ** C9 *)

(** C9: when two or more rows have the given [attr_id] and no
    [auth_result], the update sets [auth_result] and [last_activity] on all
    of them, and the call still reports [NotFound]; the update stays. *)
Theorem register_auth_result_several_pending
    (now : Z) (attr res : string) (t : Table)
    (H : 2 <= List.length (filter (pending_with attr) t)) :
  register_auth_result None now attr res t =
  (Err NotFound,
   map (fun r => if pending_with attr r then set_auth_result (Some res) now r else r) t).
Proof.
  rewrite register_auth_result_eq.
  destruct (Nat.eqb_spec (List.length (filter (pending_with attr) t)) 1) as [E|E];
    [lia|reflexivity].
Qed.

(** ** C10 *)

(** C10: when [register_auth_result] succeeds, exactly one row was
    eligible, and that row alone is changed, in the same statement: its
    [auth_result] is set and its [last_activity] is set to [now()], every
    other column is kept ([set_auth_result] copies them). *)
Theorem register_auth_result_success_refreshes
    (fault : option DbError) (now : Z) (attr res : string) (t t' : Table)
    (H : register_auth_result fault now attr res t = (Ok tt, t')) :
  fault = None /\
  List.length (filter (pending_with attr) t) = 1 /\
  t' = map (fun r => if pending_with attr r then set_auth_result (Some res) now r else r) t /\
  (forall r, In r t -> pending_with attr r = true ->
     In (set_auth_result (Some res) now r) t' /\
     col_auth_result (set_auth_result (Some res) now r) = Some res /\
     col_last_activity (set_auth_result (Some res) now r) = now).
Proof.
  rewrite register_auth_result_eq in H.
  destruct fault as [e|]; [discriminate H|].
  destruct (Nat.eqb_spec (List.length (filter (pending_with attr) t)) 1) as [E|E];
    [|discriminate H].
  injection H as <-.
  split; [reflexivity|]. split; [exact E|]. split; [reflexivity|].
  intros r Hr Hp. split; [|split; reflexivity].
  apply in_map_iff. exists r. rewrite Hp. split; [reflexivity|exact Hr].
Qed.

Lemma register_auth_result_several_pending_witness :
  2 <= List.length (filter (pending_with "a") sample_table2) /\
  register_auth_result None 10 "a" "ok" sample_table2 =
  (Err NotFound,
   map (fun r => if pending_with "a" r then set_auth_result (Some "ok") 10 r else r)
       sample_table2).
Proof.
  split; [vm_compute; lia|].
  apply register_auth_result_several_pending. vm_compute. lia.
Defined.

Lemma register_auth_result_success_refreshes_witness :
  register_auth_result None 10 "a" "ok" sample_table1 =
    (Ok tt, register_update "a" "ok" 10 sample_table1) /\
  (None = @None DbError /\
   List.length (filter (pending_with "a") sample_table1) = 1 /\
   register_update "a" "ok" 10 sample_table1 =
     map (fun r => if pending_with "a" r then set_auth_result (Some "ok") 10 r else r)
         sample_table1 /\
   (forall r, In r sample_table1 -> pending_with "a" r = true ->
      In (set_auth_result (Some "ok") 10 r) (register_update "a" "ok" 10 sample_table1) /\
      col_auth_result (set_auth_result (Some "ok") 10 r) = Some "ok" /\
      col_last_activity (set_auth_result (Some "ok") 10 r) = 10%Z)).
Proof.
  split; [reflexivity|].
  apply (register_auth_result_success_refreshes None 10 "a" "ok" sample_table1).
  reflexivity.
Defined.

Lemma filter_id_iff {A : Type} (p : A -> bool) (l : list A) :
  filter p l = l <-> (forall x, In x l -> p x = true).
Proof.
  split.
  - intros H x Hx. rewrite <- H in Hx. apply filter_In in Hx. apply Hx.
  - induction l as [|x l IH]; intros H; [reflexivity|].
    simpl. rewrite (H x (or_introl eq_refl)). f_equal.
    apply IH. intros y Hy. apply H. now right.
Qed.

(** ** C7 *)

(** C7 (counterexample): a row with [last_activity] 0 is kept by a cleanup
    at 3600 and deleted by a second cleanup one second later, on a table
    nothing else touched in between. *)
Lemma clean_db_second_run_deletes :
  snd (clean_db None 3600 sample_table1) = sample_table1 /\
  snd (clean_db None 3601 (snd (clean_db None 3600 sample_table1))) = [].
Proof. split; reflexivity. Qed.

(** C7 (amended): [clean_db] deletes exactly the rows whose
    [last_activity] is more than one hour (3600 s) before the [now()] of its
    statement and keeps every other row as it is, in place.  A second run
    at any [now'] deletes exactly the remaining rows whose [last_activity]
    lies in [[now - 3600, now' - 3600)], so it changes nothing exactly when
    no remaining row lies in that window (in particular when it sees the
    same [now()]). *)
Theorem clean_db_removes_idle (fault : option DbError) (now : Z) (t : Table) :
  clean_db fault now t =
  match fault with
  | Some e => (Err (StorageError e), t)
  | None => (Ok tt, filter (fun r => negb (idle now r)) t)
  end
  /\ (forall r, In r (snd (clean_db None now t)) <->
                In r t /\ (now - 3600 <= col_last_activity r)%Z)
  /\ (forall (now' : Z) (r : Row), In r (snd (clean_db None now t)) ->
        (In r (snd (clean_db None now' (snd (clean_db None now t)))) <->
         ~ (now - 3600 <= col_last_activity r < now' - 3600)%Z))
  /\ (forall now' : Z,
        snd (clean_db None now' (snd (clean_db None now t))) = snd (clean_db None now t) <->
        (forall r, In r (snd (clean_db None now t)) ->
           ~ (now - 3600 <= col_last_activity r < now' - 3600)%Z)).
Proof.
  assert (Heq : forall f n u, clean_db f n u =
    match f with
    | Some e => (Err (StorageError e), u)
    | None => (Ok tt, filter (fun r => negb (idle n r)) u)
    end) by (intros [e|] n u; reflexivity).
  assert (Hkept : forall r, In r (snd (clean_db None now t)) <->
                  In r t /\ (now - 3600 <= col_last_activity r)%Z).
  { intros r. rewrite (Heq None). simpl snd. rewrite filter_In. unfold idle.
    destruct (Z.ltb_spec (col_last_activity r) (now - 3600)); simpl;
      split; intros [H1 H2]; (split; [exact H1|]); try discriminate; lia. }
  assert (Hwin : forall (now' : Z) (r : Row), In r (snd (clean_db None now t)) ->
            negb (idle now' r) = true <->
            ~ (now - 3600 <= col_last_activity r < now' - 3600)%Z).
  { intros now' r Hr. apply Hkept in Hr as [_ Hr]. unfold idle.
    destruct (Z.ltb_spec (col_last_activity r) (now' - 3600)); simpl;
      split; intros Hi; try discriminate; try reflexivity; lia. }
  split; [apply Heq|]. split; [exact Hkept|].
  set (t1 := snd (clean_db None now t)) in *. split.
  - intros now' r Hr. rewrite (Heq None now'). cbn [snd]. rewrite filter_In.
    rewrite <- (Hwin now' r Hr). split; [intros [_ H]; exact H|intros H; split; assumption].
  - intros now'. rewrite (Heq None now'). cbn [snd]. split.
    + intros H r Hr. apply (Hwin now' r Hr). exact (proj1 (filter_id_iff _ t1) H r Hr).
    + intros H. apply (filter_id_iff _ t1). intros r Hr.
      apply (Hwin now' r Hr). apply H. exact Hr.
Qed.

(** ** Configuration *)

Section ConfigProps.

Variables (JweDecrypter JwsVerifier JwsSigner : Type).
Variables (EncryptionKeyConfig SignKeyConfig : Type).
Variable decrypter_try_from : EncryptionKeyConfig -> Result JweDecrypter JwtError.
Variable verifier_try_from : SignKeyConfig -> Result JwsVerifier JwtError.
Variable signer_try_from : SignKeyConfig -> Result JwsSigner JwtError.
Variable hs256_verifier_from_bytes : string -> Result JwsVerifier JwtError.

Lemma resolve_base_urls (raw : RawConfig EncryptionKeyConfig SignKeyConfig) adc
    (c : Config JweDecrypter JwsVerifier JwsSigner) :
  resolve_base decrypter_try_from verifier_try_from raw adc = Ok c ->
  internal_url c = raw_internal_url raw /\ external_url c = raw_external_url raw.
Proof.
  unfold resolve_base.
  destruct (decrypter_try_from _); [|discriminate].
  destruct (verifier_try_from _); [|discriminate].
  intros H. injection H as <-. split; reflexivity.
Qed.

(** All or nothing: a resolved [Config] exists only when every declared key
    entry resolved. *)
Lemma Config_try_from_all_resolved (raw : RawConfig EncryptionKeyConfig SignKeyConfig)
    (c : Config JweDecrypter JwsVerifier JwsSigner) :
  Config_try_from decrypter_try_from verifier_try_from signer_try_from
    hs256_verifier_from_bytes raw = Returned (Ok c) ->
  (exists d, decrypter_try_from (raw_decryption_privkey raw) = Ok d) /\
  (exists v, verifier_try_from (raw_signature_pubkey raw) = Ok v) /\
  (forall radc, raw_auth_during_comm_config raw = Some radc ->
     (exists s, signer_try_from (raw_widget_signing_privkey radc) = Ok s) /\
     (exists s, signer_try_from (raw_start_auth_signing_privkey radc) = Ok s) /\
     (exists v, hs256_verifier_from_bytes (raw_guest_signature_secret radc) = Ok v) /\
     (exists v, hs256_verifier_from_bytes (raw_host_signature_secret radc) = Ok v)).
Proof.
  unfold Config_try_from.
  assert (Hb : forall adc, resolve_base decrypter_try_from verifier_try_from raw adc = Ok c ->
            (exists d, decrypter_try_from (raw_decryption_privkey raw) = Ok d) /\
            (exists v, verifier_try_from (raw_signature_pubkey raw) = Ok v)).
  { intros adc. unfold resolve_base.
    destruct (decrypter_try_from _) as [d|]; [|discriminate].
    destruct (verifier_try_from _) as [v|]; [|discriminate].
    intros _. split; eexists; reflexivity. }
  destruct (raw_auth_during_comm_config raw) as [radc|] eqn:Eadc.
  - unfold AuthDuringCommConfig_try_from, unwrap.
    destruct (hs256_verifier_from_bytes (raw_guest_signature_secret radc)) as [gv|] eqn:Eg;
      [|discriminate].
    destruct (hs256_verifier_from_bytes (raw_host_signature_secret radc)) as [hv|] eqn:Eh;
      [|discriminate].
    destruct (signer_try_from (raw_widget_signing_privkey radc)) as [ws|] eqn:Ew;
      [|discriminate].
    destruct (signer_try_from (raw_start_auth_signing_privkey radc)) as [ss|] eqn:Es;
      [|discriminate].
    intros H. injection H as H. destruct (Hb _ H) as [Hd Hv].
    split; [exact Hd|]. split; [exact Hv|].
    intros radc' E. injection E as <-.
    repeat split; eexists; eassumption.
  - intros H. injection H as H. destruct (Hb _ H) as [Hd Hv].
    split; [exact Hd|]. split; [exact Hv|]. discriminate.
Qed.

(** A guest signature secret rejected by the HS256 verifier makes the
    construction panic ([.unwrap()]), whatever the other entries are. *)
Lemma Config_try_from_guest_secret_panics (raw : RawConfig EncryptionKeyConfig SignKeyConfig)
    (radc : RawAuthDuringCommConfig SignKeyConfig) (e : JwtError) :
  raw_auth_during_comm_config raw = Some radc ->
  hs256_verifier_from_bytes (raw_guest_signature_secret radc) = Err e ->
  Config_try_from decrypter_try_from verifier_try_from signer_try_from
    hs256_verifier_from_bytes raw = Panicked.
Proof.
  intros Hr Hg. unfold Config_try_from.
  rewrite Hr. unfold AuthDuringCommConfig_try_from, unwrap. rewrite Hg. reflexivity.
Qed.

(** ** C8 *)

(** C8: the effective external URL of a resolved configuration is the
    configured [external_url] when set and [internal_url] otherwise, and the
    [internal_url] accessor returns the configured [internal_url]; the
    accessor [external_url] falls back in the same way on every [Config]. *)
Theorem Config_external_url_fallback (raw : RawConfig EncryptionKeyConfig SignKeyConfig)
    (c : Config JweDecrypter JwsVerifier JwsSigner)
    (H : Config_try_from decrypter_try_from verifier_try_from signer_try_from
           hs256_verifier_from_bytes raw = Returned (Ok c)) :
  Config_external_url c =
    match raw_external_url raw with Some u => u | None => raw_internal_url raw end /\
  Config_internal_url c = raw_internal_url raw /\
  (forall c' : Config JweDecrypter JwsVerifier JwsSigner,
     Config_external_url c' =
       match external_url c' with Some u => u | None => internal_url c' end).
Proof.
  assert (Hu : internal_url c = raw_internal_url raw /\ external_url c = raw_external_url raw).
  { revert H. unfold Config_try_from.
    destruct (raw_auth_during_comm_config raw) as [radc|].
    - destruct (AuthDuringCommConfig_try_from _ _ radc) as [[adc|e]|];
        intros H; try discriminate.
      injection H as H. exact (resolve_base_urls _ _ _ H).
    - intros H. injection H as H. exact (resolve_base_urls _ _ _ H). }
  destruct Hu as [Hi He].
  unfold Config_external_url, Config_internal_url. rewrite Hi, He.
  split; [reflexivity|]. split; [reflexivity|]. intros c'. reflexivity.
Qed.

End ConfigProps.

Lemma Config_external_url_fallback_witness :
  Config_try_from ok_resolver ok_resolver ok_resolver hs256_min_len
    (sample_raw_config None None) =
    Returned (Ok sample_config) /\
  (Config_external_url
     sample_config =
     match raw_external_url (sample_raw_config None None) with
     | Some u => u | None => raw_internal_url (sample_raw_config None None) end /\
   Config_internal_url
     sample_config =
     raw_internal_url (sample_raw_config None None) /\
   (forall c' : Config unit unit unit,
      Config_external_url c' =
        match external_url c' with Some u => u | None => internal_url c' end)).
Proof.
  split; [reflexivity|].
  apply (Config_external_url_fallback unit unit unit unit unit
           ok_resolver ok_resolver ok_resolver hs256_min_len).
  reflexivity.
Defined.

(** ** C4 *)

(** C4 (code defect): in the extended mode, a guest signature secret that
    the HS256 verifier rejects (here a 5-byte secret) makes
    [TryFrom<RawConfig> for Config] panic at [.unwrap()] instead of failing
    with [InvalidKeyMaterial]; the same configuration with a 40-byte secret
    resolves, and a rejected widget signing key, resolved with [?], fails
    with [InvalidKeyMaterial]. *)
Theorem Config_try_from_short_guest_secret :
  Config_try_from ok_resolver ok_resolver ok_resolver hs256_min_len
    (sample_raw_config None (Some (sample_raw_adc "short"))) = Panicked /\
  (exists c, Config_try_from ok_resolver ok_resolver ok_resolver hs256_min_len
    (sample_raw_config None (Some (sample_raw_adc "fliepfliepfliepfliepfliepfliepfliepfliep")))
    = Returned (Ok c)) /\
  Config_try_from ok_resolver ok_resolver
    (fun _ : unit => @Err unit JwtError {| jwt_msg := "bad key" |}) hs256_min_len
    (sample_raw_config None (Some (sample_raw_adc "fliepfliepfliepfliepfliepfliepfliepfliep")))
    = Returned (Err (InvalidKeyMaterial {| jwt_msg := "bad key" |})).
Proof.
  split; [reflexivity|]. split; [eexists; reflexivity|]. reflexivity.
Qed.

(** ** Session store helpers *)

Lemma SessionDomain_roundtrip (d : SessionDomain) :
  SessionDomain_from_str (SessionDomain_to_string d) = Ok d.
Proof. destruct d; reflexivity. Qed.

Lemma SessionDomain_from_str_ok (str : string) (d : SessionDomain) :
  SessionDomain_from_str str = Ok d -> str = SessionDomain_to_string d.
Proof.
  unfold SessionDomain_from_str.
  destruct (String.eqb_spec str "user") as [->|_].
  { intros H. injection H as <-. reflexivity. }
  destruct (String.eqb_spec str "guest") as [->|_].
  { intros H. injection H as <-. reflexivity. }
  discriminate.
Qed.

Lemma decode_row_err (r : Row) (e : Error) : decode_row r = Err e -> e = InvalidToken.
Proof.
  unfold decode_row, SessionDomain_from_str.
  destruct (String.eqb (col_domain r) "user"); [discriminate|].
  destruct (String.eqb (col_domain r) "guest"); [discriminate|].
  intros H. injection H as <-. reflexivity.
Qed.

Lemma collect_ok {A E : Type} (l : list A) : collect (map (@Ok A E) l) = Ok l.
Proof. induction l as [|a l IH]; [reflexivity|]. simpl. rewrite IH. reflexivity. Qed.

Lemma collect_single_error {A E : Type} (l : list (Result A E)) (e : E) :
  (forall e', In (Err e') l -> e' = e) -> In (Err e) l -> collect l = Err e.
Proof.
  induction l as [|x l IH]; intros Hall Hin; [destruct Hin|].
  destruct x as [a|e'].
  - simpl. rewrite IH; [reflexivity| |].
    + intros e'' He''. apply Hall. now right.
    + destruct Hin as [Hin|Hin]; [discriminate|exact Hin].
  - simpl. f_equal. apply Hall. now left.
Qed.

Lemma decode_persisted_row (s : Session) (a now : Z) :
  decode_row (touch now (row_of_session s a)) = Ok s.
Proof.
  unfold decode_row. simpl. rewrite SessionDomain_roundtrip.
  destruct s as [[i rm d ru n ins] ar att p]. reflexivity.
Qed.

Lemma decode_room_rows (now : Z) (room : string) (entries : list (Session * Z)) :
  map decode_row (map (touch now) (filter (in_room room) (persisted_table entries))) =
  map Ok (filter (fun s => String.eqb (room_id (guest_token s)) room) (map fst entries)).
Proof.
  induction entries as [|[s a] entries IH]; [reflexivity|].
  simpl. unfold in_room at 1. simpl.
  destruct (String.eqb (room_id (guest_token s)) room); simpl; rewrite ?IH; [|reflexivity].
  rewrite decode_persisted_row. reflexivity.
Qed.

Lemma NoDup_same_id (t : Table) (a b : Row) :
  NoDup (map col_session_id t) -> In a t -> In b t ->
  col_session_id a = col_session_id b -> a = b.
Proof.
  induction t as [|x t IH]; intros Hnd Ha Hb Hid; [destruct Ha|].
  inversion Hnd as [|y l Hx Hnd' Eq]; subst.
  destruct Ha as [<-|Ha], Hb as [<-|Hb]; try reflexivity.
  - exfalso. apply Hx. rewrite Hid. apply in_map. exact Hb.
  - exfalso. apply Hx. rewrite <- Hid. apply in_map. exact Ha.
  - apply IH; assumption.
Qed.

Lemma results_kept_sub (t t' : Table) :
  NoDup (map col_session_id t) -> (forall r', In r' t' -> In r' t) -> results_kept t t'.
Proof.
  intros Hnd Hsub r r' v Hr Hv Hr' Hid.
  rewrite (NoDup_same_id t r' r Hnd (Hsub r' Hr') Hr Hid). exact Hv.
Qed.

Lemma results_kept_map (t : Table) (f : Row -> Row) :
  NoDup (map col_session_id t) ->
  (forall x, col_session_id (f x) = col_session_id x) ->
  (forall x v, col_auth_result x = Some v -> col_auth_result (f x) = Some v) ->
  results_kept t (map f t).
Proof.
  intros Hnd Hid Hres r r' v Hr Hv Hr' Hidr.
  apply in_map_iff in Hr' as [x [<- Hx]].
  rewrite Hid in Hidr.
  rewrite (NoDup_same_id t x r Hnd Hx Hr Hidr). apply Hres. exact Hv.
Qed.

Lemma filter_keeps_key (p : Row -> bool) (t : Table) :
  NoDup (map col_session_id t) -> NoDup (map col_session_id (filter p t)).
Proof.
  induction t as [|r t IH]; simpl; intros Hnd; [exact Hnd|].
  apply NoDup_cons_iff in Hnd as [Hr Hnd].
  destruct (p r); simpl; [|exact (IH Hnd)].
  apply NoDup_cons; [|exact (IH Hnd)].
  intros Hin. apply in_map_iff in Hin as [x [Hx Hxin]].
  apply filter_In in Hxin as [Hxin _].
  apply Hr. rewrite <- Hx. apply in_map. exact Hxin.
Qed.

Lemma map_id_preserving (t : Table) (f : Row -> Row) :
  (forall x, col_session_id (f x) = col_session_id x) ->
  map col_session_id (map f t) = map col_session_id t.
Proof.
  intros Hid. rewrite map_map. apply map_ext. exact Hid.
Qed.

Lemma persist_table (fault : option DbError) (now : Z) (s : Session) (t : Table) :
  snd (persist fault now s t) = t \/
  (existsb (fun r => String.eqb (col_session_id r) (id (guest_token s))) t = false /\
   snd (persist fault now s t) = t ++ [row_of_session s now]).
Proof.
  destruct fault as [e|]; [left; reflexivity|].
  unfold persist, run, sql_insert. simpl col_session_id.
  destruct (existsb _ t) eqn:E; [left; reflexivity|right; split; reflexivity].
Qed.

(** ** C1 *)

(** C1 (counterexample): on a table that already holds a row with the
    session's id, the first [persist] fails with [Conflict]. *)
Lemma persist_existing_id_conflict :
  persist None 5 (sample_session "s1" "r2" "b") sample_table1 = (Err Conflict, sample_table1).
Proof. reflexivity. Qed.

(** C1 (amended): on a table with no row of the shared id, and when neither
    statement meets another backing-store failure, the first [persist]
    appends exactly its row and the second fails with [Conflict] and leaves
    the table as the first left it; an insert failing with any error other
    than the unique-key violation is returned as [StorageError]. *)
Theorem persist_insert_once (now1 now2 : Z) (s1 s2 : Session) (t : Table)
    (Hid : id (guest_token s1) = id (guest_token s2))
    (Hfresh : forall r, In r t -> col_session_id r <> id (guest_token s1)) :
  persist None now1 s1 t = (Ok tt, t ++ [row_of_session s1 now1]) /\
  persist None now2 s2 (t ++ [row_of_session s1 now1]) =
    (Err Conflict, t ++ [row_of_session s1 now1]) /\
  (forall (e : DbError) (now : Z) (s : Session) (t0 : Table),
     is_unique_violation e = false ->
     fst (persist (Some e) now s t0) = Err (StorageError e)).
Proof.
  split; [|split].
  - unfold persist, run, sql_insert. simpl col_session_id.
    replace (existsb _ t) with false; [reflexivity|].
    symmetry. apply Bool.not_true_iff_false. intros Hex.
    apply existsb_exists in Hex as [r [Hr Heq]].
    apply String.eqb_eq in Heq. exact (Hfresh r Hr Heq).
  - unfold persist, run, sql_insert. simpl col_session_id.
    replace (existsb _ (t ++ [row_of_session s1 now1])) with true; [reflexivity|].
    symmetry. apply existsb_exists. exists (row_of_session s1 now1).
    split; [apply in_or_app; right; left; reflexivity|].
    apply String.eqb_eq. simpl. exact Hid.
  - intros e now s t0 He. unfold persist, run. simpl. rewrite He. reflexivity.
Qed.

Lemma persist_insert_once_witness :
  id (guest_token (sample_session "s3" "r1" "a")) = id (guest_token (sample_session "s3" "r2" "b")) /\
  (forall r, In r sample_table2 -> col_session_id r <> id (guest_token (sample_session "s3" "r1" "a"))) /\
  (persist None 1 (sample_session "s3" "r1" "a") sample_table2 =
     (Ok tt, sample_table2 ++ [row_of_session (sample_session "s3" "r1" "a") 1]) /\
   persist None 2 (sample_session "s3" "r2" "b")
     (sample_table2 ++ [row_of_session (sample_session "s3" "r1" "a") 1]) =
     (Err Conflict, sample_table2 ++ [row_of_session (sample_session "s3" "r1" "a") 1]) /\
   (forall (e : DbError) (now : Z) (s : Session) (t0 : Table),
      is_unique_violation e = false ->
      fst (persist (Some e) now s t0) = Err (StorageError e))).
Proof.
  assert (Hf : forall r, In r sample_table2 ->
                 col_session_id r <> id (guest_token (sample_session "s3" "r1" "a")))
    by (intros r [<-|[<-|[]]]; discriminate).
  split; [reflexivity|]. split; [exact Hf|].
  apply persist_insert_once; [reflexivity|exact Hf].
Defined.

(** ** C5 *)

(** C5: on a table of persisted sessions, [find_by_room_id] refreshes the
    [last_activity] of exactly the rows of the room and returns exactly the
    sessions of the room, decoded equal to the persisted ones (guest token
    fields, domain after its string round trip, and the other fields); when
    the room has no session it fails with [NotFound] and changes nothing. *)
Theorem find_by_room_id_returns_room (fault : option DbError) (now : Z) (room : string)
    (entries : list (Session * Z)) :
  find_by_room_id fault now room (persisted_table entries) =
  match fault with
  | Some e => (Err (StorageError e), persisted_table entries)
  | None =>
      (match filter (fun s => String.eqb (room_id (guest_token s)) room) (map fst entries) with
       | [] => Err NotFound
       | ss => Ok ss
       end,
       map (fun r => if in_room room r then touch now r else r) (persisted_table entries))
  end.
Proof.
  destruct fault as [e|]; [reflexivity|].
  unfold find_by_room_id, run, sql_touch_room.
  pose proof (decode_room_rows now room entries) as Hd.
  destruct (map (touch now) (filter (in_room room) (persisted_table entries))) as [|x xs];
    destruct (filter (fun s => String.eqb (room_id (guest_token s)) room) (map fst entries))
      as [|y ys]; try (simpl in Hd; discriminate); [reflexivity|].
  rewrite Hd, (collect_ok (y :: ys)). reflexivity.
Qed.

(** ** C6 *)

(** C6: a row of the room whose stored domain is no [SessionDomain] makes
    [find_by_room_id] fail with the validation error [InvalidToken], which
    is not [NotFound]; the row is not skipped.  The refresh of
    [last_activity] has already been applied by the statement. *)
Theorem find_by_room_id_invalid_domain (now : Z) (room : string) (t : Table) (r : Row)
    (Hin : In r t) (Hroom : col_room_id r = room)
    (Hbad : forall d, col_domain r <> SessionDomain_to_string d) :
  find_by_room_id None now room t = (Err InvalidToken, room_update room now t) /\
  InvalidToken <> NotFound.
Proof.
  split; [|discriminate].
  assert (Hr : In (touch now r) (map (touch now) (filter (in_room room) t))).
  { apply in_map. apply filter_In. split; [exact Hin|].
    unfold in_room. apply String.eqb_eq. exact Hroom. }
  assert (Hdec : decode_row (touch now r) = Err InvalidToken).
  { unfold decode_row. simpl.
    destruct (SessionDomain_from_str (col_domain r)) as [d|e] eqn:E.
    - exfalso. exact (Hbad d (SessionDomain_from_str_ok _ _ E)).
    - f_equal. apply (decode_row_err r). unfold decode_row. rewrite E. reflexivity. }
  unfold find_by_room_id, run, sql_touch_room.
  destruct (map (touch now) (filter (in_room room) t)) as [|x xs] eqn:Erows;
    [destruct Hr|].
  f_equal. change (collect (map decode_row (x :: xs)) = Err InvalidToken).
  apply collect_single_error.
  - intros e' He'. apply in_map_iff in He' as [y [Hy _]]. exact (decode_row_err y e' Hy).
  - rewrite <- Hdec. apply in_map. exact Hr.
Qed.

Lemma find_by_room_id_invalid_domain_witness :
  find_by_room_id None 10 "r1" sample_corrupt_table =
    (Err InvalidToken, room_update "r1" 10 sample_corrupt_table) /\
  InvalidToken <> NotFound.
Proof.
  apply (find_by_room_id_invalid_domain 10 "r1" sample_corrupt_table
           (hd (touch 0 (row_of_session (sample_session "s1" "r1" "a") 0)) sample_corrupt_table)).
  - left. reflexivity.
  - reflexivity.
  - intros [|]; discriminate.
Defined.

(** ** C3 *)

Lemma find_by_room_id_table (fault : option DbError) (now : Z) (room : string) (t : Table) :
  snd (find_by_room_id fault now room t) =
  match fault with Some _ => t | None => room_update room now t end.
Proof. destruct fault; reflexivity. Qed.

Lemma clean_db_table (fault : option DbError) (now : Z) (t : Table) :
  snd (clean_db fault now t) =
  match fault with Some _ => t | None => filter (fun r => negb (idle now r)) t end.
Proof. destruct fault; reflexivity. Qed.

(** Every operation keeps [session_id] a key of the table and never changes
    an [auth_result] once present. *)
Lemma ops_keep_results (o : Op) (t : Table) :
  NoDup (map col_session_id t) ->
  NoDup (map col_session_id (apply_op o t)) /\ results_kept t (apply_op o t).
Proof.
  intros Hnd.
  assert (Hself : results_kept t t) by (apply results_kept_sub; auto).
  destruct o as [fault now s|fault now attr res|fault now room|fault now]; simpl.
  - destruct (persist_table fault now s t) as [->|[Hex ->]]; [split; assumption|].
    assert (Hnot : forall r, In r t -> col_session_id r <> id (guest_token s)).
    { intros r Hr Heq. apply Bool.not_true_iff_false in Hex. apply Hex.
      apply existsb_exists. exists r. split; [exact Hr|]. apply String.eqb_eq. exact Heq. }
    split.
    + rewrite map_app. simpl.
      apply (Permutation_NoDup (Permutation_cons_append _ _)).
      constructor; [|exact Hnd].
      intros Hin. apply in_map_iff in Hin as [r [Hr Hin]]. exact (Hnot r Hin Hr).
    + intros r r' v Hr Hv Hr' Hid.
      apply in_app_or in Hr' as [Hr'|[<-|[]]].
      * rewrite (NoDup_same_id t r' r Hnd Hr' Hr Hid). exact Hv.
      * exfalso. exact (Hnot r Hr (eq_sym Hid)).
  - rewrite register_auth_result_eq. destruct fault as [e|]; [split; assumption|]. simpl.
    unfold register_update.
    assert (Hid : forall x, col_session_id
              ((fun r => if pending_with attr r then set_auth_result (Some res) now r else r) x)
              = col_session_id x) by (intros x; destruct (pending_with attr x); reflexivity).
    split.
    + rewrite (map_id_preserving t _ Hid). exact Hnd.
    + apply results_kept_map; [exact Hnd|exact Hid|].
      intros x v Hv. unfold pending_with. rewrite Hv. exact Hv.
  - rewrite find_by_room_id_table. destruct fault as [e|]; [split; assumption|].
    unfold room_update.
    assert (Hid : forall x, col_session_id
              ((fun r => if in_room room r then touch now r else r) x) = col_session_id x)
      by (intros x; destruct (in_room room x); reflexivity).
    split.
    + rewrite (map_id_preserving t _ Hid). exact Hnd.
    + apply results_kept_map; [exact Hnd|exact Hid|].
      intros x v Hv. destruct (in_room room x); exact Hv.
  - rewrite clean_db_table. destruct fault as [e|]; [split; assumption|].
    split; [apply filter_keeps_key; exact Hnd|].
    apply results_kept_sub; [exact Hnd|]. intros r' Hr'. apply filter_In in Hr'. apply Hr'.
Qed.

Lemma register_update_resolves (attr res : string) (now : Z) (t : Table) :
  forall r, In r (register_update attr res now t) -> pending_with attr r = false.
Proof.
  intros r Hr. unfold register_update in Hr.
  apply in_map_iff in Hr as [x [<- _]].
  destruct (pending_with attr x) eqn:E; [reflexivity|exact E].
Qed.

(** C3 (counterexample): on an empty table neither of two calls succeeds. *)
Lemma register_auth_result_twice_empty :
  register_auth_result None 1 "a" "x" [] = (Err NotFound, []) /\
  register_auth_result None 2 "a" "y" [] = (Err NotFound, []).
Proof. split; reflexivity. Qed.

(** C3 (amended): when exactly one row has the given [attr_id] and no
    [auth_result], and both statements run without a backing-store failure,
    of two successive calls with that [attr_id] (any results [r1], [r2], so
    either order) the first succeeds and stores [r1] in that row, and the
    second fails with [NotFound] and changes nothing; and on a table keyed
    by [session_id] no operation changes a present [auth_result] (and the
    key is kept). *)
Theorem register_auth_result_once (now1 now2 : Z) (attr r1 r2 : string) (t : Table)
    (H1 : List.length (filter (pending_with attr) t) = 1) :
  fst (register_auth_result None now1 attr r1 t) = Ok tt /\
  register_auth_result None now2 attr r2 (snd (register_auth_result None now1 attr r1 t)) =
    (Err NotFound, snd (register_auth_result None now1 attr r1 t)) /\
  (forall r, In r t -> pending_with attr r = true ->
     In (set_auth_result (Some r1) now1 r) (snd (register_auth_result None now1 attr r1 t))) /\
  (forall (o : Op) (t0 : Table), NoDup (map col_session_id t0) ->
     NoDup (map col_session_id (apply_op o t0)) /\ results_kept t0 (apply_op o t0)).
Proof.
  rewrite !register_auth_result_eq, H1. simpl snd.
  split; [reflexivity|]. split; [|split].
  - pose proof (register_update_resolves attr r1 now1 t) as Hres.
    rewrite (no_pending_filter _ _ Hres), register_update_no_pending by exact Hres.
    reflexivity.
  - intros r Hr Hp. unfold register_update. apply in_map_iff.
    exists r. rewrite Hp. split; [reflexivity|exact Hr].
  - exact ops_keep_results.
Qed.

Lemma register_auth_result_once_witness :
  List.length (filter (pending_with "a") sample_table1) = 1 /\
  (fst (register_auth_result None 1 "a" "x" sample_table1) = Ok tt /\
   register_auth_result None 2 "a" "y" (snd (register_auth_result None 1 "a" "x" sample_table1)) =
     (Err NotFound, snd (register_auth_result None 1 "a" "x" sample_table1)) /\
   (forall r, In r sample_table1 -> pending_with "a" r = true ->
      In (set_auth_result (Some "x") 1 r) (snd (register_auth_result None 1 "a" "x" sample_table1))) /\
   (forall (o : Op) (t0 : Table), NoDup (map col_session_id t0) ->
      NoDup (map col_session_id (apply_op o t0)) /\ results_kept t0 (apply_op o t0))).
Proof.
  split; [reflexivity|].
  apply register_auth_result_once. reflexivity.
Defined.

(** * Further properties of session.rs and config.rs *)

(** ** Helpers *)

Lemma persist_fresh (now : Z) (s : Session) (t : Table) :
  (forall r, In r t -> col_session_id r <> id (guest_token s)) ->
  persist None now s t = (Ok tt, t ++ [row_of_session s now]).
Proof.
  intros Hfresh. unfold persist, run, sql_insert. simpl col_session_id.
  replace (existsb _ t) with false; [reflexivity|].
  symmetry. apply Bool.not_true_iff_false. intros Hex.
  apply existsb_exists in Hex as [r [Hr Heq]].
  apply String.eqb_eq in Heq. exact (Hfresh r Hr Heq).
Qed.

Lemma find_persisted (now : Z) (room : string) (entries : list (Session * Z)) :
  fst (find_by_room_id None now room (persisted_table entries)) =
  match filter (fun s => String.eqb (room_id (guest_token s)) room) (map fst entries) with
  | [] => Err NotFound
  | ss => Ok ss
  end.
Proof.
  unfold find_by_room_id, run, sql_touch_room. simpl fst.
  pose proof (decode_room_rows now room entries) as Hd.
  destruct (map (touch now) (filter (in_room room) (persisted_table entries))) as [|x xs];
    destruct (filter (fun s => String.eqb (room_id (guest_token s)) room) (map fst entries))
      as [|y ys]; try (simpl in Hd; discriminate); [reflexivity|].
  rewrite Hd, (collect_ok (y :: ys)). reflexivity.
Qed.

Lemma persisted_table_app (entries more : list (Session * Z)) :
  persisted_table (entries ++ more) = persisted_table entries ++ persisted_table more.
Proof. apply map_app. Qed.

Lemma filter_filter_implied {A : Type} (p q : A -> bool) (l : list A) :
  (forall x, In x l -> p x = true -> q x = true) ->
  filter p (filter q l) = filter p l.
Proof.
  induction l as [|x l IH]; intros H; [reflexivity|].
  simpl. destruct (q x) eqn:Eq; simpl.
  - destruct (p x); rewrite IH by (intros y Hy; apply H; now right); reflexivity.
  - destruct (p x) eqn:Ep.
    + rewrite (H x (or_introl eq_refl) Ep) in Eq. discriminate.
    + apply IH. intros y Hy. apply H. now right.
Qed.

Lemma collect_ok_inv {A E : Type} (l : list (Result A E)) (xs : list A) :
  collect l = Ok xs -> l = map Ok xs.
Proof.
  revert xs. induction l as [|[a|e0] l IH]; intros xs H; simpl in H.
  - injection H as <-. reflexivity.
  - destruct (collect l) as [ys|e1] eqn:Ecol; [|discriminate].
    injection H as <-. simpl. rewrite (IH ys eq_refl). reflexivity.
  - discriminate.
Qed.

Lemma decode_row_room (r : Row) (s : Session) :
  decode_row r = Ok s -> room_id (guest_token s) = col_room_id r.
Proof.
  unfold decode_row. destruct (SessionDomain_from_str (col_domain r)); [|discriminate].
  intros H. injection H as <-. reflexivity.
Qed.

Lemma register_update_persisted (attr res : string) (now : Z) (entries : list (Session * Z)) :
  register_update attr res now (persisted_table entries) =
  persisted_table
    (map (fun '(s, a) => if session_pending attr s then (session_with_result res s, now) else (s, a))
         entries).
Proof.
  induction entries as [|[s a] entries IH]; [reflexivity|].
  unfold register_update in *. simpl. rewrite IH. f_equal.
  unfold pending_with, session_pending. simpl.
  destruct (auth_result s); [reflexivity|].
  destruct (String.eqb (attr_id s) attr); reflexivity.
Qed.

(** ** Session store *)

(** A session created by [Session::new] and persisted under a fresh id is
    appended to the table, and [find_by_room_id] of its room then returns,
    in some order, the room's earlier sessions and the new session as it was
    created (with no [auth_result]). *)
Theorem new_persist_find_roundtrip (entries : list (Session * Z)) (gt : GuestToken)
    (attr purp : string) (now1 now2 : Z)
    (Hfresh : forall r, In r (persisted_table entries) -> col_session_id r <> id gt) :
  persist None now1 (Session_new gt attr purp) (persisted_table entries) =
    (Ok tt, persisted_table (entries ++ [(Session_new gt attr purp, now1)])) /\
  exists ss,
    fst (find_by_room_id None now2 (room_id gt)
           (persisted_table (entries ++ [(Session_new gt attr purp, now1)]))) = Ok ss /\
    Permutation ss
      (filter (fun s => String.eqb (room_id (guest_token s)) (room_id gt)) (map fst entries)
       ++ [Session_new gt attr purp]).
Proof.
  split.
  - rewrite persisted_table_app. apply persist_fresh. exact Hfresh.
  - rewrite find_persisted, map_app, filter_app. simpl. rewrite String.eqb_refl.
    destruct (filter _ (map fst entries)); (eexists; split; [reflexivity|apply Permutation_refl]).
Qed.

Lemma new_persist_find_roundtrip_witness :
  (forall r, In r (persisted_table [(sample_session "s2" "r1" "b", 0%Z); (sample_session "s3" "r2" "c", 0%Z)]) ->
     col_session_id r <> id (sample_token "s1" "r1")) /\
  (persist None 1 (Session_new (sample_token "s1" "r1") "a" "report_move")
     (persisted_table [(sample_session "s2" "r1" "b", 0%Z); (sample_session "s3" "r2" "c", 0%Z)]) =
     (Ok tt, persisted_table ([(sample_session "s2" "r1" "b", 0%Z); (sample_session "s3" "r2" "c", 0%Z)]
                              ++ [(Session_new (sample_token "s1" "r1") "a" "report_move", 1%Z)])) /\
   exists ss,
     fst (find_by_room_id None 2 (room_id (sample_token "s1" "r1"))
            (persisted_table ([(sample_session "s2" "r1" "b", 0%Z); (sample_session "s3" "r2" "c", 0%Z)]
                              ++ [(Session_new (sample_token "s1" "r1") "a" "report_move", 1%Z)]))) = Ok ss /\
     Permutation ss
       (filter (fun s => String.eqb (room_id (guest_token s)) (room_id (sample_token "s1" "r1")))
          (map fst [(sample_session "s2" "r1" "b", 0%Z); (sample_session "s3" "r2" "c", 0%Z)])
        ++ [Session_new (sample_token "s1" "r1") "a" "report_move"])).
Proof.
  assert (Hf : forall r, In r (persisted_table [(sample_session "s2" "r1" "b", 0%Z); (sample_session "s3" "r2" "c", 0%Z)]) ->
     col_session_id r <> id (sample_token "s1" "r1"))
    by (intros r [<-|[<-|[]]]; discriminate).
  split; [exact Hf|].
  apply new_persist_find_roundtrip. exact Hf.
Defined.

(** A session created by [Session::new] and persisted under a fresh id is
    pending for its [attr_id]: when no other row is pending for that
    [attr_id], [register_auth_result] on it succeeds and sets the result and
    [last_activity] of that row only. *)
Theorem new_persist_register (t : Table) (gt : GuestToken) (attr purp res : string)
    (now1 now2 : Z)
    (Hfresh : forall r, In r t -> col_session_id r <> id gt)
    (Hnone : forall r, In r t -> pending_with attr r = false) :
  register_auth_result None now2 attr res (snd (persist None now1 (Session_new gt attr purp) t)) =
  (Ok tt, t ++ [set_auth_result (Some res) now2 (row_of_session (Session_new gt attr purp) now1)]).
Proof.
  rewrite (persist_fresh now1 (Session_new gt attr purp) t Hfresh). simpl snd.
  rewrite register_auth_result_eq, filter_app, (no_pending_filter _ _ Hnone).
  unfold register_update. rewrite map_app.
  fold (register_update attr res now2 t).
  rewrite (register_update_no_pending _ _ _ _ Hnone).
  unfold pending_with. simpl. rewrite String.eqb_refl. reflexivity.
Qed.

Lemma new_persist_register_witness :
  (forall r, In r sample_table_mixed -> col_session_id r <> id (sample_token "s9" "r2")) /\
  (forall r, In r sample_table_mixed -> pending_with "a" r = false) /\
  register_auth_result None 2 "a" "ok"
    (snd (persist None 1 (Session_new (sample_token "s9" "r2") "a" "report_move") sample_table_mixed)) =
  (Ok tt, sample_table_mixed ++ [set_auth_result (Some "ok") 2
                   (row_of_session (Session_new (sample_token "s9" "r2") "a" "report_move") 1)]).
Proof.
  assert (Hf : forall r, In r sample_table_mixed -> col_session_id r <> id (sample_token "s9" "r2"))
    by (intros r [<-|[<-|[]]]; discriminate).
  assert (Hn : forall r, In r sample_table_mixed -> pending_with "a" r = false)
    by (intros r [<-|[<-|[]]]; reflexivity).
  split; [exact Hf|]. split; [exact Hn|].
  apply new_persist_register; [exact Hf|exact Hn].
Defined.

(** After [register_auth_result] on a table of persisted sessions,
    [find_by_room_id] returns every session that was pending for that
    [attr_id] with the registered result, whatever the first call reported
    (also in the [NotFound] case of several pending rows). *)
Theorem register_then_find (entries : list (Session * Z)) (attr res room : string)
    (now1 now2 : Z) :
  fst (find_by_room_id None now2 room
         (snd (register_auth_result None now1 attr res (persisted_table entries)))) =
  match filter (fun s => String.eqb (room_id (guest_token s)) room)
          (map (fun s => if session_pending attr s then session_with_result res s else s)
               (map fst entries)) with
  | [] => Err NotFound
  | ss => Ok ss
  end.
Proof.
  rewrite register_auth_result_eq. simpl snd.
  rewrite register_update_persisted, find_persisted.
  rewrite !map_map.
  erewrite map_ext; [reflexivity|].
  intros [s a]. simpl. destruct (session_pending attr s); reflexivity.
Qed.

(** The rows of a room listed by [find_by_room_id] at [now] all survive
    [clean_db] for one hour: a cleanup at any [now'] up to [now + 3600]
    keeps every row of that room. *)
Theorem find_then_clean_keeps_room (t : Table) (room : string) (now now' : Z)
    (H : (now' <= now + 3600)%Z) :
  filter (in_room room) (snd (clean_db None now' (snd (find_by_room_id None now room t)))) =
  filter (in_room room) (snd (find_by_room_id None now room t)).
Proof.
  rewrite clean_db_table, find_by_room_id_table. unfold room_update.
  apply filter_filter_implied.
  intros x Hx Hroom. apply in_map_iff in Hx as [y [<- Hy]].
  destruct (in_room room y) eqn:Ey.
  - unfold idle. simpl. apply negb_true_iff. apply Z.ltb_ge. lia.
  - rewrite Ey in Hroom. discriminate.
Qed.

Lemma find_then_clean_keeps_room_witness :
  (3000 <= 0 + 3600)%Z /\
  filter (in_room "r1") (snd (clean_db None 3000 (snd (find_by_room_id None 0 "r1" sample_table2)))) =
  filter (in_room "r1") (snd (find_by_room_id None 0 "r1" sample_table2)).
Proof.
  split; [lia|]. apply find_then_clean_keeps_room. lia.
Defined.

(** Cleanups compose: a [clean_db] at [now] followed by one at a later
    [now'] removes exactly what a single [clean_db] at [now'] removes. *)
Theorem clean_db_compose (t : Table) (now now' : Z) (H : (now <= now')%Z) :
  snd (clean_db None now' (snd (clean_db None now t))) = snd (clean_db None now' t).
Proof.
  rewrite !clean_db_table. apply filter_filter_implied.
  intros x _ Hx. unfold idle in *.
  apply negb_true_iff in Hx. apply negb_true_iff.
  apply Z.ltb_ge in Hx. apply Z.ltb_ge. lia.
Qed.

Lemma clean_db_compose_witness :
  (10 <= 5000)%Z /\
  snd (clean_db None 5000 (snd (clean_db None 10 sample_table2))) =
  snd (clean_db None 5000 sample_table2).
Proof. split; [lia|]. apply clean_db_compose. lia. Defined.

(** On any table, a successful [find_by_room_id] returns one session per
    row of the room (so at least one), each in the requested room. *)
Theorem find_by_room_id_ok_shape (fault : option DbError) (now : Z) (room : string)
    (t : Table) (ss : list Session)
    (H : fst (find_by_room_id fault now room t) = Ok ss) :
  ss <> [] /\
  List.length ss = List.length (filter (in_room room) t) /\
  (forall s, In s ss -> room_id (guest_token s) = room).
Proof.
  destruct fault as [e|]; [discriminate H|].
  unfold find_by_room_id, run, sql_touch_room in H. simpl in H.
  destruct (map (touch now) (filter (in_room room) t)) as [|x xs] eqn:Erows;
    [discriminate H|].
  apply collect_ok_inv in H.
  assert (Hlen : List.length ss = List.length (filter (in_room room) t)).
  { rewrite <- (length_map (touch now)), Erows, <- (length_map decode_row), H.
    symmetry. apply length_map. }
  split; [|split; [exact Hlen|]].
  - intros ->. simpl in H. discriminate H.
  - intros s Hs.
    assert (Hin : In (Ok s) (map decode_row (x :: xs))) by (rewrite H; now apply in_map).
    apply in_map_iff in Hin as [y [Hy Hyin]].
    rewrite (decode_row_room y s Hy). rewrite <- Erows in Hyin.
    apply in_map_iff in Hyin as [z [<- Hz]]. apply filter_In in Hz as [_ Hz].
    apply String.eqb_eq in Hz. exact Hz.
Qed.

Lemma find_by_room_id_ok_shape_witness :
  fst (find_by_room_id None 10 "r1" sample_table2) =
    Ok [sample_session "s1" "r1" "a"; sample_session "s2" "r1" "a"] /\
  ([sample_session "s1" "r1" "a"; sample_session "s2" "r1" "a"] <> [] /\
   List.length [sample_session "s1" "r1" "a"; sample_session "s2" "r1" "a"] =
     List.length (filter (in_room "r1") sample_table2) /\
   (forall s, In s [sample_session "s1" "r1" "a"; sample_session "s2" "r1" "a"] ->
      room_id (guest_token s) = "r1")).
Proof.
  split; [reflexivity|].
  apply (find_by_room_id_ok_shape None 10 "r1" sample_table2). reflexivity.
Defined.

(** ** Configuration *)

Section ConfigExtra.

Variables (JweDecrypter JwsVerifier JwsSigner : Type).
Variables (EncryptionKeyConfig SignKeyConfig : Type).
Variable decrypter_try_from : EncryptionKeyConfig -> Result JweDecrypter JwtError.
Variable verifier_try_from : SignKeyConfig -> Result JwsVerifier JwtError.
Variable signer_try_from : SignKeyConfig -> Result JwsSigner JwtError.
Variable hs256_verifier_from_bytes : string -> Result JwsVerifier JwtError.

(** Without the [auth_during_comm] extension, resolution never panics; it
    yields a [Config] exactly when both the decryption key and the signature
    key resolve, and that [Config] has no extension.  A failing decryption
    key is reported before the signature key is looked at. *)
Theorem Config_try_from_base_mode (raw : RawConfig EncryptionKeyConfig SignKeyConfig)
    (H : raw_auth_during_comm_config raw = None) :
  Config_try_from decrypter_try_from verifier_try_from signer_try_from
    hs256_verifier_from_bytes raw <> Panicked /\
  ((exists c, Config_try_from decrypter_try_from verifier_try_from signer_try_from
                hs256_verifier_from_bytes raw = Returned (Ok c) /\
              auth_during_comm_config c = None) <->
   (exists d, decrypter_try_from (raw_decryption_privkey raw) = Ok d) /\
   (exists v, verifier_try_from (raw_signature_pubkey raw) = Ok v)) /\
  (forall e, decrypter_try_from (raw_decryption_privkey raw) = Err e ->
     Config_try_from decrypter_try_from verifier_try_from signer_try_from
       hs256_verifier_from_bytes raw = Returned (Err (InvalidKeyMaterial e))).
Proof.
  unfold Config_try_from. rewrite H. split; [discriminate|]. split.
  - unfold resolve_base. split.
    + intros [c [Hc _]].
      destruct (decrypter_try_from _) as [d|e]; [|discriminate].
      destruct (verifier_try_from _) as [v|e]; [|discriminate].
      split; eexists; reflexivity.
    + intros [[d Hd] [v Hv]]. rewrite Hd, Hv. eexists. split; reflexivity.
  - intros e He. unfold resolve_base. rewrite He. reflexivity.
Qed.

(** With the extension, the extension is resolved first: once both HMAC
    secrets are accepted, a rejected widget signing key is the error
    returned, whatever the decryption and signature keys are. *)
Theorem Config_try_from_extension_first (raw : RawConfig EncryptionKeyConfig SignKeyConfig)
    (radc : RawAuthDuringCommConfig SignKeyConfig) (gv hv : JwsVerifier) (e : JwtError)
    (Hadc : raw_auth_during_comm_config raw = Some radc)
    (Hg : hs256_verifier_from_bytes (raw_guest_signature_secret radc) = Ok gv)
    (Hh : hs256_verifier_from_bytes (raw_host_signature_secret radc) = Ok hv)
    (Hw : signer_try_from (raw_widget_signing_privkey radc) = Err e) :
  Config_try_from decrypter_try_from verifier_try_from signer_try_from
    hs256_verifier_from_bytes raw = Returned (Err (InvalidKeyMaterial e)).
Proof.
  unfold Config_try_from. rewrite Hadc.
  unfold AuthDuringCommConfig_try_from, unwrap. rewrite Hg, Hh, Hw. reflexivity.
Qed.

(** A resolved [Config] built with the extension carries it, and the
    extension's accessors [core_url], [widget_url], [display_name] and
    [start_auth_key_id] return the configured strings unchanged. *)
Theorem Config_try_from_extension_fields (raw : RawConfig EncryptionKeyConfig SignKeyConfig)
    (radc : RawAuthDuringCommConfig SignKeyConfig)
    (c : Config JweDecrypter JwsVerifier JwsSigner)
    (Hadc : raw_auth_during_comm_config raw = Some radc)
    (Hc : Config_try_from decrypter_try_from verifier_try_from signer_try_from
            hs256_verifier_from_bytes raw = Returned (Ok c)) :
  exists adc, auth_during_comm_config c = Some adc /\
    core_url adc = raw_core_url radc /\ widget_url adc = raw_widget_url radc /\
    display_name adc = raw_display_name radc /\
    start_auth_key_id adc = raw_start_auth_key_id radc.
Proof.
  revert Hc. unfold Config_try_from. rewrite Hadc.
  unfold AuthDuringCommConfig_try_from, unwrap.
  destruct (hs256_verifier_from_bytes (raw_guest_signature_secret radc)) as [gv|];
    [|discriminate].
  destruct (hs256_verifier_from_bytes (raw_host_signature_secret radc)) as [hv|];
    [|discriminate].
  destruct (signer_try_from (raw_widget_signing_privkey radc)) as [ws|]; [|discriminate].
  destruct (signer_try_from (raw_start_auth_signing_privkey radc)) as [ss|]; [|discriminate].
  unfold resolve_base.
  destruct (decrypter_try_from _) as [d|]; [|discriminate].
  destruct (verifier_try_from _) as [v|]; [|discriminate].
  intros Hc. injection Hc as <-.
  eexists. split; [reflexivity|]. repeat split.
Qed.

End ConfigExtra.

Lemma Config_try_from_base_mode_witness :
  raw_auth_during_comm_config (sample_raw_config None None) = None /\
  (Config_try_from ok_resolver ok_resolver ok_resolver hs256_min_len
     (sample_raw_config None None) <> Panicked /\
   ((exists c, Config_try_from ok_resolver ok_resolver ok_resolver hs256_min_len
                 (sample_raw_config None None) = Returned (Ok c) /\
               auth_during_comm_config c = None) <->
    (exists d, @ok_resolver unit (raw_decryption_privkey (sample_raw_config None None)) = Ok d) /\
    (exists v, @ok_resolver unit (raw_signature_pubkey (sample_raw_config None None)) = Ok v)) /\
   (forall e, @ok_resolver unit (raw_decryption_privkey (sample_raw_config None None)) = Err e ->
      Config_try_from ok_resolver ok_resolver ok_resolver hs256_min_len
        (sample_raw_config None None) = Returned (Err (InvalidKeyMaterial e)))).
Proof.
  split; [reflexivity|].
  apply (Config_try_from_base_mode unit unit unit unit unit
           ok_resolver ok_resolver ok_resolver hs256_min_len).
  reflexivity.
Defined.

Lemma Config_try_from_extension_first_witness :
  Config_try_from ok_resolver ok_resolver
    (fun _ : unit => @Err unit JwtError {| jwt_msg := "bad key" |}) hs256_min_len
    (sample_raw_config None (Some (sample_raw_adc "fliepfliepfliepfliepfliepfliepfliepfliep")))
  = Returned (Err (InvalidKeyMaterial {| jwt_msg := "bad key" |})).
Proof.
  apply (Config_try_from_extension_first unit unit unit unit unit ok_resolver ok_resolver
           (fun _ : unit => @Err unit JwtError {| jwt_msg := "bad key" |}) hs256_min_len
           _ (sample_raw_adc "fliepfliepfliepfliepfliepfliepfliepfliep") tt tt);
    reflexivity.
Defined.

Lemma Config_try_from_extension_fields_witness :
  exists c, Config_try_from ok_resolver ok_resolver ok_resolver hs256_min_len
    (sample_raw_config None (Some (sample_raw_adc "fliepfliepfliepfliepfliepfliepfliepfliep")))
    = Returned (Ok c) /\
  exists adc, auth_during_comm_config c = Some adc /\
    core_url adc = "https://core.example.com" /\ widget_url adc = "https://widget.example.com" /\
    display_name adc = "Example Comm" /\ start_auth_key_id adc = "key-1".
Proof.
  eexists. split; [reflexivity|].
  apply (Config_try_from_extension_fields unit unit unit unit unit ok_resolver ok_resolver
           ok_resolver hs256_min_len
           (sample_raw_config None (Some (sample_raw_adc "fliepfliepfliepfliepfliepfliepfliepfliep")))
           (sample_raw_adc "fliepfliepfliepfliepfliepfliepfliepfliep"));
    reflexivity.
Defined.
